(** * nickcam: a fake camera component

    A shallow embedding of [main.go] of the [nickcam] module: the
    configuration validator, and the camera operations of the [fake]
    adapter ([Images], [NextPointCloud], [Projector], [Properties],
    [DoCommand]) as computations over an explicit world (wall clock, adapter
    mutex, event trace), followed by the properties of the specification. *)

From Stdlib Require Import ZArith String Ascii List Lia.
From stdpp Require Import base option list sorting strings gmap.

Local Open Scope Z_scope.
Local Open Scope string_scope.

(** ** Values of the imported packages *)

(** [image/color]: [color.NRGBA], four 8-bit channels. *)
Module color.
Record NRGBA : Type := mkNRGBA { R : Z; G : Z; B : Z; A : Z }.
(** The zero value, which a Go map lookup yields for an absent key. *)
Definition zero : NRGBA := mkNRGBA 0 0 0 0.
End color.

(** A Go [error] value, identified with what its [Error()] method prints. *)
Record error : Type := errors_New { Error : string }.

(** [strings.Join]. *)
Definition strings_Join (elems : list string) (sep : string) : string :=
  String.concat sep elems.

(** [fmt.Sprintf], for the verbs [main.go] uses: [%s] prints the next
    operand, a string, as it is; any other byte of the format is copied. An
    operand that is missing prints as Go prints it. *)
Fixpoint fmt_Sprintf (format : string) (a : list string) : string :=
  match format with
  | "" => ""
  | String "%" (String "s" rest) =>
      match a with
      | x :: a' => x +:+ fmt_Sprintf rest a'
      | [] => "%!s(MISSING)" +:+ fmt_Sprintf rest []
      end
  | String ch rest => String ch (fmt_Sprintf rest a)
  end.

(** [fmt.Errorf]. *)
Definition fmt_Errorf (format : string) (a : list string) : error :=
  errors_New (fmt_Sprintf format a).

(** [maps.Keys m]: the keys of [m], each once, in an indeterminate order.
    The order is the caller's unknown, so it is a relation. *)
Definition maps_Keys {V} (m : gmap string V) (ks : list string) : Prop :=
  ks ≡ₚ (map_to_list m).*1.

(** [slices.Sort] on a slice of strings: ascending in Go's [<] on strings,
    the byte-wise lexicographic order. *)
Definition slices_Sort (x : list string) : list string :=
  merge_sort String.le x.

(** ** Package-level tables *)

Definition imageTypes : gmap string bool :=
  list_to_map [ ("jpeg", true); ("png", true) ].

Definition colors : gmap string color.NRGBA :=
  list_to_map
    [ ("white", color.mkNRGBA 255 255 255 255);
      ("red",   color.mkNRGBA 255 0 0 255);
      ("green", color.mkNRGBA 0 255 0 255);
      ("blue",  color.mkNRGBA 0 0 255 255) ].

(** The two package-level slices [imageTypeOptions] and [colorOptions]. *)
Record Globals : Type := mkGlobals {
  imageTypeOptions : list string;
  colorOptions : list string
}.

(** Their initialisers are [maps.Keys(imageTypes)] and [maps.Keys(colors)]. *)
Definition var_initialised (g : Globals) : Prop :=
  maps_Keys imageTypes (imageTypeOptions g) ∧ maps_Keys colors (colorOptions g).

(** [func init()], run once after the initialisers and before [main]. *)
Definition init (g : Globals) : Globals :=
  {| colorOptions := slices_Sort (colorOptions g);
     imageTypeOptions := slices_Sort (imageTypeOptions g) |}.

(** ** Config *)

Record Config : Type := mkConfig {
  Big : bool;
  Color : string;
  ImageType : string
}.

(** [func (c *Config) Validate(path string) ([]string, error)]. A [nil]
    slice and a [nil] error are [None]. *)
Definition Validate (g : Globals) (c : Config) (path : string)
  : option (list string) * option error :=
  match colors !! Color c with
  | None =>
      (None, Some (fmt_Errorf "config color %s invalid, valid colors: %s"
                     [Color c; strings_Join (colorOptions g) ", "]))
  | Some _ =>
      match imageTypes !! ImageType c with
      | None =>
          (None, Some (fmt_Errorf "config image_type %s invalid, valid image types: %s"
                         [ImageType c; strings_Join (imageTypeOptions g) ", "]))
      | Some _ => (None, None)
      end
  end.

(** A run of the map iteration, for examples. *)
Definition globals0 : Globals :=
  {| imageTypeOptions := ["png"; "jpeg"];
     colorOptions := ["red"; "white"; "blue"; "green"] |}.


(** ** The world an operation runs in *)

(** [time.Time], as an instant: nanoseconds since January 1, year 1,
    00:00:00 UTC, so that the zero value [time.Time{}] is [0]. *)
Definition Time : Type := Z.
Definition time_zero : Time := 0.

(** What an operation does that can be observed from outside, in order. *)
Inductive Event : Type :=
| EvDebug (msg : string)     (* logger.Debug *)
| EvInfo (msg : string)      (* logger.Info *)
| EvNow (t : Time)           (* time.Now() returned t *)
| EvImage (label : string).  (* clockDrawer.Image(label) was called *)

(** The process as one adapter sees it: the wall clock as the sequence of
    its future readings, the number of readings taken so far, the state of
    the adapter's mutex [f.mu], and the trace of events. *)
Record World : Type := mkWorld {
  w_clock : nat → Time;
  w_reads : nat;
  w_mu : bool;
  w_trace : list Event
}.

(** How a call ends: it returns to its caller, the process exits, or the
    call waits on a mutex that is held. *)
Inductive Outcome (A : Type) : Type :=
| Returns (a : A) (w : World)
| Exits (code : Z) (w : World)
| Blocks (w : World).
Global Arguments Returns {A} a w.
Global Arguments Exits {A} code w.
Global Arguments Blocks {A} w.

Definition M (A : Type) : Type := World → Outcome A.

Global Instance M_ret : MRet M := λ A a w, Returns a w.
Global Instance M_bind : MBind M := λ A B k m w,
  match m w with
  | Returns a w' => k a w'
  | Exits code w' => Exits code w'
  | Blocks w' => Blocks w'
  end.

Definition emit (e : Event) : M unit :=
  λ w, Returns tt (mkWorld (w_clock w) (w_reads w) (w_mu w) (w_trace w ++ [e])).

(** [defer d] in a function whose remaining body is [body]: [d] runs when
    the body returns, and does not run when the process exits inside it. *)
Definition defer {A} (d : M unit) (body : M A) : M A :=
  r ← body; d;; mret r.

(** [sync.Mutex]. Unlocking a mutex that is not locked is a fatal error of
    the Go runtime, which ends the process with status 2. *)
Definition mu_Lock : M unit :=
  λ w, if w_mu w then Blocks w
       else Returns tt (mkWorld (w_clock w) (w_reads w) true (w_trace w)).

Definition mu_Unlock : M unit :=
  λ w, if w_mu w then Returns tt (mkWorld (w_clock w) (w_reads w) false (w_trace w))
       else Exits 2 w.

(** [logging.Logger]. *)
Definition logger_Debug (msg : string) : M unit := emit (EvDebug msg).
Definition logger_Info (msg : string) : M unit := emit (EvInfo msg).

(** [time.Now()]: the next reading of the wall clock. *)
Definition time_Now : M Time :=
  λ w, let t := w_clock w (w_reads w) in
       Returns t (mkWorld (w_clock w) (S (w_reads w)) (w_mu w) (w_trace w ++ [EvNow t])).

(** [os.Exit(code)]: the process ends at once; deferred calls do not run. *)
Definition os_Exit (code : Z) : M unit := λ w, Exits code w.

(** The ANSI escapes of [main.go]; ["\033"] is the byte 27. *)
Definition Reset : string := String "027" "[0m".
Definition Green : string := String "027" "[32m".
Definition Cyan : string := String "027" "[36m".

(** ** [time.Time.Format(time.RFC3339Nano)]

    The layout is ["2006-01-02T15:04:05.999999999Z07:00"]. The operations
    below are stated for any formatter; [Format_RFC3339Nano_UTC] is the
    formatter of a process whose local time zone is UTC, for instants of the
    years 1 to 9999, and is what the examples run. *)

Definition digit (d : Z) : ascii := ascii_of_nat (48 + Z.to_nat d).

(** The last [width] decimal digits of [n], in front of [acc]. *)
Fixpoint zpad (width : nat) (n : Z) (acc : string) : string :=
  match width with
  | O => acc
  | S w => zpad w (n / 10) (String (digit (n mod 10)) acc)
  end.

(** The layout element [.999999999]: the [width] digits of [n] without
    their trailing zeros, and nothing at all when [n] is zero. *)
Fixpoint frac (width : nat) (n : Z) : string :=
  match width with
  | O => ""
  | S w => if (n mod 10 =? 0)%Z then frac w (n / 10) else String "." (zpad width n "")
  end.

(** Year, month and day of the proleptic Gregorian calendar from the number
    of days since January 1 of year 1. *)
Definition civil (days : Z) : Z * Z * Z :=
  let z := days + 306 in                      (* days since March 1, year 0 *)
  let era := z / 146097 in
  let doe := z - era * 146097 in
  let yoe := (doe - doe / 1460 + doe / 36524 - doe / 146096) / 365 in
  let doy := doe - (365 * yoe + yoe / 4 - yoe / 100) in
  let mp := (5 * doy + 2) / 153 in
  let d := doy - (153 * mp + 2) / 5 + 1 in
  let m := if (mp <? 10)%Z then mp + 3 else mp - 9 in
  let y := yoe + era * 400 + (if (m <=? 2)%Z then 1 else 0) in
  (y, m, d).

Definition Format_RFC3339Nano_UTC (t : Time) : string :=
  let nsec := t mod 1000000000 in
  let sec := t / 1000000000 in
  let '(y, m, d) := civil (sec / 86400) in
  let sod := sec mod 86400 in
  zpad 4 y "" +:+ "-" +:+ zpad 2 m "" +:+ "-" +:+ zpad 2 d "" +:+ "T"
  +:+ zpad 2 (sod / 3600) "" +:+ ":" +:+ zpad 2 (sod mod 3600 / 60) "" +:+ ":"
  +:+ zpad 2 (sod mod 60) "" +:+ frac 9 nsec +:+ "Z".


(** ** Types of the packages the adapter is written against *)

(** [github.com/nicksanford/imageclock/clockdrawer]: the renderer. The
    package is imported, not part of this module, so a [ClockDrawer] is what
    its two methods answer: [Image(label)], an image and an error, and
    [Ext()]. [image_Image] is the type of the values of [image.Image]. *)
Module clockdrawer.
Record ClockDrawer (image_Image : Type) : Type := mk {
  Image : string → image_Image * option error;
  Ext : string
}.
Global Arguments mk {image_Image} _ _.
Global Arguments Image {image_Image} _ _.
Global Arguments Ext {image_Image} _.
End clockdrawer.

Module camera.
Record NamedImage (image_Image : Type) : Type := mkNamedImage {
  Image : image_Image;
  SourceName : string
}.
Global Arguments mkNamedImage {image_Image} _ _.
Global Arguments Image {image_Image} _.
Global Arguments SourceName {image_Image} _.

(** The one field of [camera.Properties] that [main.go] sets; the others
    keep their zero values. *)
Record Properties : Type := mkProperties { SupportsPCD : bool }.
End camera.

Module resource.
Record ResponseMetadata : Type := mkResponseMetadata { CapturedAt : Time }.
(** [resource.ResponseMetadata{}]. *)
Definition zero : ResponseMetadata := mkResponseMetadata time_zero.
End resource.

(** ** The adapter *)

Section Camera.
(** Values of [image.Image], [pointcloud.PointCloud], [transform.Projector]
    and [interface{}]. *)
Context {image_Image pointcloud_PointCloud transform_Projector Any : Type}.

(** [t.Format(time.RFC3339Nano)]. *)
Variable Format : Time → string.

(** [pointcloud.ReadPCD(bytes.NewReader(b))], as a function of [b]. *)
Variable pointcloud_ReadPCD : list Byte.byte → pointcloud_PointCloud * option error.

(** The embedded files [pcds/small.pcd] and [pcds/large.pcd]. *)
Variables smallPCDBytes bigPCDBytes : list Byte.byte.

(** [clockdrawer.New(name, color, format, big)]. *)
Variable clockdrawer_New :
  string → color.NRGBA → string → bool →
  clockdrawer.ClockDrawer image_Image * option error.

(** [type fake struct]. The mutex [mu] and the logger are in the [World];
    [Named] is the resource name. *)
Record fake : Type := mkFake {
  Named : string;
  clockDrawer : clockdrawer.ClockDrawer image_Image;
  big : bool
}.

(** A call [f.clockDrawer.Image(label)]. *)
Definition clockDrawer_Image (f : fake) (label : string)
  : M (image_Image * option error) :=
  emit (EvImage label);; mret (clockdrawer.Image (clockDrawer f) label).

(** [func newCam]; [named] is [conf.ResourceName()], [c] the native
    configuration of [conf]. *)
Definition newCam (named : string) (c : Config) : option fake * option error :=
  let '(cd, err) :=
    clockdrawer_New named (default color.zero (colors !! Color c))
                    (ImageType c) (Big c) in
  match err with
  | Some _ => (None, err)
  | None => (Some {| Named := named; big := Big c; clockDrawer := cd |}, None)
  end.

(** [func (f *fake) Images]. *)
Definition Images (f : fake)
  : M (option (list (camera.NamedImage image_Image))
       * resource.ResponseMetadata * option error) :=
  mu_Lock;;
  defer mu_Unlock (
  logger_Debug "GetImages START";;
  defer (logger_Debug "GetImages END") (
  ts1 ← time_Now;
  let nowStr1 := Format ts1 in
  '(img1, err) ← clockDrawer_Image f ("images1 time: " +:+ nowStr1);
  match err with
  | Some _ => mret (None, resource.zero, err)
  | None =>
      ts2 ← time_Now;
      let nowStr2 := Format ts1 in
      '(img2, err) ← clockDrawer_Image f ("images2 time: " +:+ nowStr2);
      match err with
      | Some _ => mret (None, resource.zero, err)
      | None =>
          mret (Some [ camera.mkNamedImage img1 (nowStr1 +:+ clockdrawer.Ext (clockDrawer f));
                       camera.mkNamedImage img2 (nowStr2 +:+ clockdrawer.Ext (clockDrawer f)) ],
                resource.mkResponseMetadata ts2, None)
      end
  end)).

(** [func (f *fake) NextPointCloud]. *)
Definition NextPointCloud (f : fake) : M (pointcloud_PointCloud * option error) :=
  mu_Lock;;
  defer mu_Unlock (
  logger_Debug "NextPointCloud START";;
  defer (logger_Debug "NextPointCloud END") (
  if big f then mret (pointcloud_ReadPCD bigPCDBytes)
  else mret (pointcloud_ReadPCD smallPCDBytes))).

(** [func (f *fake) Projector]. *)
Definition Projector (f : fake) : M (option transform_Projector * option error) :=
  logger_Debug "Projector START";;
  defer (logger_Debug "Projector END") (
  mret (None, Some (errors_New "Projector unimplemented"))).

(** [func (f *fake) Properties]. *)
Definition Properties (f : fake) : M (camera.Properties * option error) :=
  logger_Debug "Properties START";;
  defer (logger_Debug "Properties END") (
  mret (camera.mkProperties true, None)).

(** [func (f *fake) DoCommand]; a [nil] map is [None]. *)
Definition DoCommand (f : fake) (extra : gmap string Any)
  : M (option (gmap string Any) * option error) :=
  mu_Lock;;
  defer mu_Unlock (
  let boom := bool_decide (is_Some (extra !! "boom")) in
  (if boom then logger_Info (Cyan +:+ "Boom" +:+ Reset);; os_Exit 1
   else mret tt);;
  mret (None, None)).

End Camera.

(** ** The stream *)

Section Streaming.
Context {image_Image : Type}.

(** [t.Format(time.RFC3339Nano)]. *)
Variable Format : Time → string.

(** [type s struct]; its logger is in the [World]. *)
Record s : Type := mk_s {
  s_clockDrawer : clockdrawer.ClockDrawer image_Image
}.

(** [func (s *s) Next]. The second result, the release function, is [nil].
    No mutex is taken. *)
Definition Next (st : s) : M (image_Image * option (M unit) * option error) :=
  logger_Debug "GetImage (NEXT) START";;
  defer (logger_Debug "GetImage (NEXT) END") (
  now ← time_Now;
  let label := "image time: " +:+ Format now in
  '(img, err) ← (emit (EvImage label);;
                 mret (clockdrawer.Image (s_clockDrawer st) label));
  mret (img, None, err)).

(** [func (s *s) Close]. *)
Definition Close (st : s) : M (option error) := mret None.

(** [func (f *fake) newStream]. *)
Definition newStream (f : @fake image_Image) : s :=
  {| s_clockDrawer := clockDrawer f |}.

(** [func (f *fake) Stream]. *)
Definition Stream (f : @fake image_Image) : M (s * option error) :=
  mu_Lock;;
  defer mu_Unlock (
  logger_Debug "Stream START";;
  defer (logger_Debug "Stream END") (
  mret (newStream f, None))).

End Streaming.

(** ** The constructor, as the host calls it *)

(** How a call of a function that takes no part in the [World] ends: it
    returns, or the goroutine panics. *)
Inductive Called (A : Type) : Type :=
| Returned (a : A)
| Panicked (msg : string).
Global Arguments Returned {A} a.
Global Arguments Panicked {A} msg.

Section Registration.
Context {image_Image resource_Config : Type}.

(** [conf.ResourceName().AsNamed()], as the name. *)
Variable ResourceName : resource_Config → string.

(** [resource.NativeConfig[*Config](conf)]: the pointer, [None] when it is
    [nil], and the error. *)
Variable resource_NativeConfig : resource_Config → option Config * option error.

(** [clockdrawer.New(name, color, format, big)]. *)
Variable clockdrawer_New :
  string → color.NRGBA → string → bool →
  clockdrawer.ClockDrawer image_Image * option error.

(** [func newCam] from its first line: the conversion of lines 122 to 125,
    and then [newCam] above, which is the function from line 126 on. With no
    error and a [nil] pointer the read of [c.Color] panics. *)
Definition newCam_conf (conf : resource_Config)
  : Called (option (@fake image_Image) * option error) :=
  let '(c, err) := resource_NativeConfig conf in
  match err with
  | Some _ => Returned (None, err)
  | None =>
      match c with
      | None => Panicked "runtime error: invalid memory address or nil pointer dereference"
      | Some c => Returned (newCam clockdrawer_New (ResourceName conf) c)
      end
  end.

End Registration.

(** ** Observations on a trace *)

Definition is_render (e : Event) : bool :=
  match e with EvImage _ => true | _ => false end.

(** The number of calls of the renderer in a trace. *)
Definition renders (tr : list Event) : nat := length (filter is_render tr).

(** Some reading of the clock that returned [t] was taken when the renderer
    had been called at least [n] times. *)
Definition read_after_renders (n : nat) (t : Time) (tr : list Event) : Prop :=
  ∃ pre post, tr = (pre ++ EvNow t :: post)%list ∧ (n ≤ renders pre)%nat.

Definition is_reading (e : Event) : bool :=
  match e with EvNow _ => true | _ => false end.

(** The number of readings of the clock in a trace. *)
Definition readings (tr : list Event) : nat := length (filter is_reading tr).

(** The clock never runs backwards. *)
Definition monotone (clock : nat → Time) : Prop :=
  ∀ i j, (i ≤ j)%nat → (clock i ≤ clock j)%Z.

(** ** A concrete adapter, for examples

    The renderer draws nothing: its image is the label it was given. The
    clock starts on 2023-11-14 at 22:13:20 UTC and each reading is a
    microsecond after the one before. *)

Definition cd_jpeg : clockdrawer.ClockDrawer string :=
  clockdrawer.mk (λ label, (label, None)) ".jpeg".

(** A renderer whose encoder fails from the second image of a batch on. *)
Definition cd_png_failing : clockdrawer.ClockDrawer string :=
  clockdrawer.mk
    (λ label, (label, if String.prefix "images2" label
                      then Some (errors_New "png: encode failed") else None))
    ".png".

Definition clock0 (n : nat) : Time :=
  (62135596800 + 1700000000) * 1000000000 + 1000 * Z.of_nat n.

Definition w0 : World := mkWorld clock0 0 false [].

Definition f0 : fake := mkFake "cam" cd_jpeg false.
Definition f1 : fake := mkFake "cam" cd_png_failing true.

(** The same adapter with its mutex held by another call. *)
Definition w0_held : World := mkWorld clock0 0 true [].

(** Another run of the map iteration. *)
Definition globals1 : Globals :=
  {| imageTypeOptions := ["jpeg"; "png"];
     colorOptions := ["white"; "red"; "green"; "blue"] |}.

(** A constructor for examples: the renderer of [cd_jpeg] or, for ["png"],
    of [cd_png_failing], and an error for any other format. *)
Definition New_example (name : string) (c : color.NRGBA) (format : string) (big : bool)
  : clockdrawer.ClockDrawer string * option error :=
  if String.eqb format "jpeg" then (cd_jpeg, None)
  else if String.eqb format "png" then (cd_png_failing, None)
  else (cd_jpeg, Some (errors_New "unsupported format")).

(** A host configuration for examples: the resource name and the converted
    attributes, which are a [Config] or something of another type. *)
Definition NativeConfig_example (conf : string * option Config)
  : option Config * option error :=
  match conf.2 with
  | Some c => (Some c, None)
  | None => (None, Some (errors_New "unexpected type"))
  end.

(** A decoder for examples: the point cloud is the number of bytes read. *)
Definition ReadPCD_length (b : list Byte.byte) : nat * option error :=
  (length b, None).

(** * Properties *)

(** ** The formatter and the tables on examples *)

Example Format_zero : Format_RFC3339Nano_UTC time_zero = "0001-01-01T00:00:00Z".
Proof. vm_compute. reflexivity. Qed.

(** 1700000000.5 seconds after the Unix epoch, which is 62135596800 seconds
    after the zero instant. *)
Example Format_2023 :
  Format_RFC3339Nano_UTC ((62135596800 + 1700000000) * 1000000000 + 500000000)
  = "2023-11-14T22:13:20.5Z".
Proof. vm_compute. reflexivity. Qed.

Example Format_leap_day :
  Format_RFC3339Nano_UTC ((62135596800 + 1709251199) * 1000000000 + 123456789)
  = "2024-02-29T23:59:59.123456789Z".
Proof. vm_compute. reflexivity. Qed.

Example Format_y2k :
  Format_RFC3339Nano_UTC ((62135596800 + 946684800) * 1000000000 + 1000)
  = "2000-01-01T00:00:00.000001Z".
Proof. vm_compute. reflexivity. Qed.

Example init_globals0 :
  init globals0 = mkGlobals ["jpeg"; "png"] ["blue"; "green"; "red"; "white"].
Proof. vm_compute. reflexivity. Qed.

Example Validate_purple :
  Validate (init globals0) (mkConfig false "purple" "jpeg") "p"
  = (None, Some (errors_New "config color purple invalid, valid colors: blue, green, red, white")).
Proof. vm_compute. reflexivity. Qed.

(** ** The tables and their sorted keys *)

Section Tables.

Lemma colors_lookup_Some (c : string) :
  c ∈ ["white"; "red"; "green"; "blue"] → is_Some (colors !! c).
Proof.
  rewrite !elem_of_cons, elem_of_nil.
  intros [-> | [-> | [-> | [-> | []]]]]; vm_compute; eauto.
Qed.

Lemma colors_lookup_None (c : string) :
  c ∉ ["white"; "red"; "green"; "blue"] → colors !! c = None.
Proof. intros Hc. apply not_elem_of_list_to_map_1. exact Hc. Qed.

Lemma imageTypes_lookup_Some (t : string) :
  t ∈ ["jpeg"; "png"] → is_Some (imageTypes !! t).
Proof.
  rewrite !elem_of_cons, elem_of_nil.
  intros [-> | [-> | []]]; vm_compute; eauto.
Qed.

Lemma imageTypes_lookup_None (t : string) :
  t ∉ ["jpeg"; "png"] → imageTypes !! t = None.
Proof. intros Ht. apply not_elem_of_list_to_map_1. exact Ht. Qed.

(** Sorting does not depend on the order the keys came in. *)
Lemma slices_Sort_unique (ks l : list string) :
  ks ≡ₚ l → Sorted String.le l → slices_Sort ks = l.
Proof.
  intros Hperm Hsorted. unfold slices_Sort.
  apply (Sorted_unique String.le); [apply Sorted_merge_sort; apply _ | exact Hsorted |].
  rewrite merge_sort_Permutation. exact Hperm.
Qed.

Lemma slices_Sort_sorted (ks : list string) : Sorted String.le (slices_Sort ks).
Proof. apply Sorted_merge_sort. apply _. Qed.

Lemma maps_Keys_colors (ks : list string) :
  maps_Keys colors ks → ks ≡ₚ ["blue"; "green"; "red"; "white"].
Proof.
  unfold maps_Keys, colors. intros ->.
  rewrite map_to_list_to_map by compute_done.
  simpl. symmetry. exact (reverse_Permutation ["white"; "red"; "green"; "blue"]).
Qed.

Lemma maps_Keys_imageTypes (ks : list string) :
  maps_Keys imageTypes ks → ks ≡ₚ ["jpeg"; "png"].
Proof.
  unfold maps_Keys, imageTypes. intros ->.
  rewrite map_to_list_to_map by compute_done. reflexivity.
Qed.

(** After [init], whatever order the maps were iterated in. *)
Lemma init_options (g0 : Globals) :
  var_initialised g0 →
  init g0 = mkGlobals ["jpeg"; "png"] ["blue"; "green"; "red"; "white"].
Proof.
  intros [Hi Hc]. unfold init. f_equal.
  - apply slices_Sort_unique; [by apply maps_Keys_imageTypes |].
    repeat constructor; exact I.
  - apply slices_Sort_unique; [by apply maps_Keys_colors |].
    repeat constructor; exact I.
Qed.

Lemma globals0_initialised : var_initialised globals0.
Proof.
  split; unfold maps_Keys, imageTypes, colors;
    rewrite map_to_list_to_map by compute_done; simpl.
  - apply Permutation_swap.
  - etrans; [apply Permutation_swap |]. do 2 apply perm_skip. apply Permutation_swap.
Qed.

End Tables.

(** ** Config.Validate *)

Section Validation.

Lemma app_empty_r (s : string) : s +:+ "" = s.
Proof.
  induction s as [| ch s IH]; [reflexivity |].
  change (String ch s +:+ "") with (String ch (s +:+ "")). by rewrite IH.
Qed.

Lemma Sprintf_color (x y : string) :
  fmt_Sprintf "config color %s invalid, valid colors: %s" [x; y]
  = "config color " +:+ x +:+ " invalid, valid colors: " +:+ y.
Proof. cbn [fmt_Sprintf]. rewrite app_empty_r. reflexivity. Qed.

Lemma Sprintf_image_type (x y : string) :
  fmt_Sprintf "config image_type %s invalid, valid image types: %s" [x; y]
  = "config image_type " +:+ x +:+ " invalid, valid image types: " +:+ y.
Proof. cbn [fmt_Sprintf]. rewrite app_empty_r. reflexivity. Qed.

(** The first check: a color that is not a key of [colors]. *)
Lemma Validate_color_error (g : Globals) (c : Config) (path : string) :
  colors !! Color c = None →
  Validate g c path =
    (None, Some (errors_New ("config color " +:+ Color c
                             +:+ " invalid, valid colors: "
                             +:+ strings_Join (colorOptions g) ", "))).
Proof.
  intros Hc. unfold Validate, fmt_Errorf. rewrite Hc, Sprintf_color. reflexivity.
Qed.

(** The second check, reached only past the first. *)
Lemma Validate_image_type_error (g : Globals) (c : Config) (path : string) :
  is_Some (colors !! Color c) →
  imageTypes !! ImageType c = None →
  Validate g c path =
    (None, Some (errors_New ("config image_type " +:+ ImageType c
                             +:+ " invalid, valid image types: "
                             +:+ strings_Join (imageTypeOptions g) ", "))).
Proof.
  intros [rgba Hc] Ht. unfold Validate, fmt_Errorf.
  rewrite Hc, Ht, Sprintf_image_type. reflexivity.
Qed.

Lemma Validate_warnings_nil (g : Globals) (c : Config) (path : string) :
  (Validate g c path).1 = None.
Proof.
  unfold Validate.
  destruct (colors !! Color c); [destruct (imageTypes !! ImageType c) |]; reflexivity.
Qed.

End Validation.

(** C3: a configuration whose color is one of white, red, green and blue and
    whose image type is one of jpeg and png passes [Validate] with no error
    (and no warnings), whatever its [big] flag is. *)
Theorem Validate_accepts_valid
    (g : Globals) (big : bool) (color image_type path : string) :
  color ∈ ["white"; "red"; "green"; "blue"] →
  image_type ∈ ["jpeg"; "png"] →
  Validate g (mkConfig big color image_type) path = (None, None).
Proof.
  intros [rgba Hc]%colors_lookup_Some [b Ht]%imageTypes_lookup_Some.
  unfold Validate. simpl. rewrite Hc, Ht. reflexivity.
Qed.

Lemma Validate_accepts_valid_witness :
  "green" ∈ ["white"; "red"; "green"; "blue"] ∧ "jpeg" ∈ ["jpeg"; "png"] ∧
  Validate (init globals0) (mkConfig true "green" "jpeg") "" = (None, None).
Proof.
  split; [compute_done |]. split; [compute_done |].
  apply Validate_accepts_valid; compute_done.
Defined.

(** C4: once the package is initialised (the option slices are the keys of
    the two tables, sorted by [init]), a configuration with a color outside
    white, red, green, blue is rejected with an error that names the color
    and lists the colors in sorted order, and one with a valid color and an
    image type outside jpeg, png is rejected with an error that names the
    image type and lists the image types in sorted order. *)
Theorem Validate_rejects_invalid (g0 : Globals) (c : Config) (path : string) :
  var_initialised g0 →
  let g := init g0 in
  (Sorted String.le (colorOptions g)
   ∧ strings_Join (colorOptions g) ", " = "blue, green, red, white")
  ∧ (Sorted String.le (imageTypeOptions g)
     ∧ strings_Join (imageTypeOptions g) ", " = "jpeg, png")
  ∧ (Color c ∉ ["white"; "red"; "green"; "blue"] →
     Validate g c path =
       (None, Some (errors_New ("config color " +:+ Color c
                                +:+ " invalid, valid colors: "
                                +:+ strings_Join (colorOptions g) ", "))))
  ∧ (Color c ∈ ["white"; "red"; "green"; "blue"] →
     ImageType c ∉ ["jpeg"; "png"] →
     Validate g c path =
       (None, Some (errors_New ("config image_type " +:+ ImageType c
                                +:+ " invalid, valid image types: "
                                +:+ strings_Join (imageTypeOptions g) ", ")))).
Proof.
  intros Hinit g. subst g.
  repeat split.
  - apply slices_Sort_sorted.
  - rewrite (init_options g0 Hinit). reflexivity.
  - apply slices_Sort_sorted.
  - rewrite (init_options g0 Hinit). reflexivity.
  - intros Hc. apply Validate_color_error. by apply colors_lookup_None.
  - intros Hc Ht. apply Validate_image_type_error.
    + by apply colors_lookup_Some.
    + by apply imageTypes_lookup_None.
Qed.

Lemma Validate_rejects_invalid_witness :
  var_initialised globals0 ∧
  Validate (init globals0) (mkConfig false "purple" "jpeg") "" =
    (None, Some (errors_New "config color purple invalid, valid colors: blue, green, red, white"))
  ∧ Validate (init globals0) (mkConfig false "red" "gif") "" =
    (None, Some (errors_New "config image_type gif invalid, valid image types: jpeg, png")).
Proof.
  split; [exact globals0_initialised |].
  destruct (Validate_rejects_invalid globals0 (mkConfig false "purple" "jpeg") ""
              globals0_initialised) as (_ & _ & Hcolor & _).
  destruct (Validate_rejects_invalid globals0 (mkConfig false "red" "gif") ""
              globals0_initialised) as (_ & _ & _ & Htype).
  split.
  - rewrite Hcolor by compute_done. reflexivity.
  - rewrite Htype by compute_done. reflexivity.
Defined.

(** C10: when both the color and the image type are invalid, [Validate]
    returns the color error, which is not the image-type error: the color is
    checked first and the image type is not looked at. And the warnings are
    [nil] for every configuration, accepted or rejected. *)
Theorem Validate_color_checked_first (g : Globals) (c : Config) (path : string) :
  Color c ∉ ["white"; "red"; "green"; "blue"] →
  ImageType c ∉ ["jpeg"; "png"] →
  (Validate g c path).2 =
    Some (fmt_Errorf "config color %s invalid, valid colors: %s"
            [Color c; strings_Join (colorOptions g) ", "])
  ∧ (Validate g c path).2 ≠
    Some (fmt_Errorf "config image_type %s invalid, valid image types: %s"
            [ImageType c; strings_Join (imageTypeOptions g) ", "])
  ∧ (∀ image_type, Validate g (mkConfig (Big c) (Color c) image_type) path = Validate g c path)
  ∧ (∀ g' c' path', (Validate g' c' path').1 = None).
Proof.
  intros Hc%colors_lookup_None _.
  split; [| split; [| split]].
  - unfold Validate. rewrite Hc. reflexivity.
  - unfold Validate. rewrite Hc. unfold fmt_Errorf. cbn [fmt_Sprintf snd]. intros [=].
  - intros image_type. unfold Validate. simpl. rewrite Hc. reflexivity.
  - intros g' c' path'. apply Validate_warnings_nil.
Qed.

Lemma Validate_color_checked_first_witness :
  ("purple" ∉ ["white"; "red"; "green"; "blue"]) ∧ ("gif" ∉ ["jpeg"; "png"]) ∧
  (Validate (init globals0) (mkConfig true "purple" "gif") "").2 =
    Some (errors_New "config color purple invalid, valid colors: blue, green, red, white").
Proof.
  split; [compute_done |]. split; [compute_done |].
  destruct (Validate_color_checked_first (init globals0) (mkConfig true "purple" "gif") "")
    as (Herr & _); [compute_done | compute_done |].
  rewrite Herr. vm_compute. reflexivity.
Defined.

(** ** The camera operations *)

Section Operations.
Context {image_Image pointcloud_PointCloud transform_Projector Any : Type}.
Variable Format : Time → string.
Variable pointcloud_ReadPCD : list Byte.byte → pointcloud_PointCloud * option error.
Variables smallPCDBytes bigPCDBytes : list Byte.byte.

Implicit Types (f : @fake image_Image) (w : World) (e : error).

(** The two labels [Images] has rendered, both from the first reading. *)
Local Abbreviation label1 w := ("images1 time: " +:+ Format (w_clock w (w_reads w))).
Local Abbreviation label2 w := ("images2 time: " +:+ Format (w_clock w (w_reads w))).

Ltac run w Hmu :=
  destruct w as [clock reads mu tr]; simpl in Hmu; subst mu;
  cbv [Images NextPointCloud DoCommand defer mbind mret M_bind M_ret mu_Lock mu_Unlock
       clockDrawer_Image logger_Debug logger_Info time_Now os_Exit emit
       w_mu w_clock w_reads w_trace].

(** The first render fails: nothing else is attempted. *)
Lemma Images_first_fails f w img e :
  w_mu w = false →
  clockdrawer.Image (clockDrawer f) (label1 w) = (img, Some e) →
  Images Format f w =
    Returns (None, resource.zero, Some e)
      (mkWorld (w_clock w) (S (w_reads w)) false
         (w_trace w ++ [ EvDebug "GetImages START"; EvNow (w_clock w (w_reads w));
                         EvImage (label1 w); EvDebug "GetImages END" ])).
Proof.
  intros Hmu. run w Hmu. intros ->.
  rewrite <- !app_assoc. reflexivity.
Qed.

(** The second render fails: the first image is dropped. *)
Lemma Images_second_fails f w img1 img2 e :
  w_mu w = false →
  clockdrawer.Image (clockDrawer f) (label1 w) = (img1, None) →
  clockdrawer.Image (clockDrawer f) (label2 w) = (img2, Some e) →
  Images Format f w =
    Returns (None, resource.zero, Some e)
      (mkWorld (w_clock w) (S (S (w_reads w))) false
         (w_trace w ++ [ EvDebug "GetImages START"; EvNow (w_clock w (w_reads w));
                         EvImage (label1 w); EvNow (w_clock w (S (w_reads w)));
                         EvImage (label2 w); EvDebug "GetImages END" ])).
Proof.
  intros Hmu. run w Hmu. intros -> ->.
  rewrite <- !app_assoc. reflexivity.
Qed.

(** Both renders succeed. *)
Lemma Images_succeeds f w img1 img2 :
  w_mu w = false →
  clockdrawer.Image (clockDrawer f) (label1 w) = (img1, None) →
  clockdrawer.Image (clockDrawer f) (label2 w) = (img2, None) →
  Images Format f w =
    Returns
      (Some [ camera.mkNamedImage img1
                (Format (w_clock w (w_reads w)) +:+ clockdrawer.Ext (clockDrawer f));
              camera.mkNamedImage img2
                (Format (w_clock w (w_reads w)) +:+ clockdrawer.Ext (clockDrawer f)) ],
       resource.mkResponseMetadata (w_clock w (S (w_reads w))), None)
      (mkWorld (w_clock w) (S (S (w_reads w))) false
         (w_trace w ++ [ EvDebug "GetImages START"; EvNow (w_clock w (w_reads w));
                         EvImage (label1 w); EvNow (w_clock w (S (w_reads w)));
                         EvImage (label2 w); EvDebug "GetImages END" ])).
Proof.
  intros Hmu. run w Hmu. intros -> ->.
  rewrite <- !app_assoc. reflexivity.
Qed.

(** A call on a held mutex waits. *)
Lemma Images_blocks f w : w_mu w = true → Images Format f w = Blocks w.
Proof.
  intros Hmu. destruct w as [clock reads mu tr]. simpl in Hmu. subst mu. reflexivity.
Qed.

(** What a call that returned images did. *)
Lemma Images_success_inv f w imgs md w' :
  Images Format f w = Returns (Some imgs, md, None) w' →
  ∃ img1 img2,
    imgs = [ camera.mkNamedImage img1
               (Format (w_clock w (w_reads w)) +:+ clockdrawer.Ext (clockDrawer f));
             camera.mkNamedImage img2
               (Format (w_clock w (w_reads w)) +:+ clockdrawer.Ext (clockDrawer f)) ]
    ∧ md = resource.mkResponseMetadata (w_clock w (S (w_reads w)))
    ∧ w_trace w' =
        (w_trace w ++ [ EvDebug "GetImages START"; EvNow (w_clock w (w_reads w));
                        EvImage (label1 w); EvNow (w_clock w (S (w_reads w)));
                        EvImage (label2 w); EvDebug "GetImages END" ])%list.
Proof.
  intros Hrun.
  destruct (w_mu w) eqn:Hmu; [by rewrite Images_blocks in Hrun |].
  destruct (clockdrawer.Image (clockDrawer f) (label1 w)) as [img1 [e1 |]] eqn:H1.
  { by rewrite (Images_first_fails _ _ _ _ Hmu H1) in Hrun. }
  destruct (clockdrawer.Image (clockDrawer f) (label2 w)) as [img2 [e2 |]] eqn:H2.
  { by rewrite (Images_second_fails _ _ _ _ _ Hmu H1 H2) in Hrun. }
  rewrite (Images_succeeds _ _ _ _ Hmu H1 H2) in Hrun.
  injection Hrun as <- <- <-. exists img1, img2. done.
Qed.

(** Every call that returns images returns two, under one name. *)
Lemma Images_SourceNames_equal f w imgs md w' :
  Images Format f w = Returns (Some imgs, md, None) w' →
  ∃ i1 i2, imgs = [i1; i2] ∧ camera.SourceName i1 = camera.SourceName i2.
Proof.
  intros (img1 & img2 & -> & _)%Images_success_inv. eauto.
Qed.

(** C2, as the program has it: the [CapturedAt] of a call that returns
    images is the second reading of the clock, taken when the first image
    has been rendered and the second has not; and with a clock that does
    not run backwards it is not before either of the two readings the call
    takes for its renders, the one before the first render and the one
    before the second. *)
Theorem Images_CapturedAt_between_renders f w imgs md w' :
  Images Format f w = Returns (Some imgs, md, None) w' →
  ∃ ts1 ts2 l1 l2,
    ts1 = w_clock w (w_reads w)
    ∧ ts2 = w_clock w (S (w_reads w))
    ∧ resource.CapturedAt md = ts2
    ∧ w_trace w' =
        (w_trace w ++ [ EvDebug "GetImages START"; EvNow ts1; EvImage l1;
                        EvNow ts2; EvImage l2;
                        EvDebug "GetImages END" ])%list
    ∧ (monotone (w_clock w) →
       (ts1 ≤ resource.CapturedAt md)%Z ∧ (ts2 ≤ resource.CapturedAt md)%Z).
Proof.
  intros (img1 & img2 & -> & -> & Htrace)%Images_success_inv.
  eexists _, _, _, _. split; [reflexivity |]. split; [reflexivity |].
  split; [reflexivity |]. split; [exact Htrace |].
  intros Hmono. simpl. split; [apply Hmono; lia | lia].
Qed.

(** C9: when a render fails, the first or the second, [Images] returns
    the renderer's error as it is, no images (also not the first one when
    the second fails) and the empty [ResponseMetadata]; the mutex is free
    again. *)
Theorem Images_render_error f w e :
  w_mu w = false →
  (clockdrawer.Image (clockDrawer f) (label1 w)).2 = Some e
  ∨ ((clockdrawer.Image (clockDrawer f) (label1 w)).2 = None
     ∧ (clockdrawer.Image (clockDrawer f) (label2 w)).2 = Some e) →
  ∃ w', Images Format f w = Returns (None, resource.zero, Some e) w'
        ∧ w_mu w' = false.
Proof.
  intros Hmu [H1 | [H1 H2]].
  - destruct (clockdrawer.Image (clockDrawer f) (label1 w)) as [img1 e1] eqn:E1.
    simpl in H1. subst e1.
    eexists. split; [exact (Images_first_fails _ _ _ _ Hmu E1) | reflexivity].
  - destruct (clockdrawer.Image (clockDrawer f) (label1 w)) as [img1 e1] eqn:E1.
    destruct (clockdrawer.Image (clockDrawer f) (label2 w)) as [img2 e2] eqn:E2.
    simpl in H1, H2. subst e1 e2.
    eexists. split; [exact (Images_second_fails _ _ _ _ _ Hmu E1 E2) | reflexivity].
Qed.

(** C5: [NextPointCloud] returns what [ReadPCD] decodes from the large
    embedded file when [big] is set and from the small one when it is not;
    the clock, the trace so far and the number of earlier calls have no
    part in the result. *)
Theorem NextPointCloud_by_flag f w :
  w_mu w = false →
  NextPointCloud pointcloud_ReadPCD smallPCDBytes bigPCDBytes f w =
    Returns
      (pointcloud_ReadPCD (if big f then bigPCDBytes else smallPCDBytes))
      (mkWorld (w_clock w) (w_reads w) false
         (w_trace w ++ [EvDebug "NextPointCloud START"; EvDebug "NextPointCloud END"])).
Proof.
  intros Hmu. run w Hmu. destruct (big f); rewrite <- !app_assoc; reflexivity.
Qed.

(** C6: with the key ["boom"] in the map, whatever its value, [DoCommand]
    logs the marker and the process exits with status 1, the mutex still
    held since no deferred call runs; without the key it returns a [nil]
    map and a [nil] error and leaves the world as it was. *)
Theorem DoCommand_boom f (extra : gmap string Any) w :
  w_mu w = false →
  (is_Some (extra !! "boom") →
     DoCommand f extra w =
       Exits 1 (mkWorld (w_clock w) (w_reads w) true
                  (w_trace w ++ [EvInfo (Cyan +:+ "Boom" +:+ Reset)])))
  ∧ (extra !! "boom" = None → DoCommand f extra w = Returns (None, None) w).
Proof.
  intros Hmu. run w Hmu. split; intros Hboom.
  - rewrite bool_decide_eq_true_2 by exact Hboom. reflexivity.
  - rewrite bool_decide_eq_false_2; [reflexivity |].
    rewrite Hboom. by intros [? [=]].
Qed.

(** C7: [Projector] returns no projector and the error "Projector
    unimplemented", for every adapter and in every world. *)
Theorem Projector_unimplemented f w :
  Projector (transform_Projector := transform_Projector) f w =
    Returns (None, Some (errors_New "Projector unimplemented"))
      (mkWorld (w_clock w) (w_reads w) (w_mu w)
         (w_trace w ++ [EvDebug "Projector START"; EvDebug "Projector END"])).
Proof.
  cbv [Projector defer mbind mret M_bind M_ret logger_Debug emit
       w_mu w_clock w_reads w_trace].
  destruct w. rewrite <- !app_assoc. reflexivity.
Qed.

(** C8: [Properties] returns [{SupportsPCD: true}] and a [nil] error, for
    every adapter and in every world. *)
Theorem Properties_static f w :
  Properties f w =
    Returns (camera.mkProperties true, None)
      (mkWorld (w_clock w) (w_reads w) (w_mu w)
         (w_trace w ++ [EvDebug "Properties START"; EvDebug "Properties END"])).
Proof.
  cbv [Properties defer mbind mret M_bind M_ret logger_Debug emit
       w_mu w_clock w_reads w_trace].
  destruct w. rewrite <- !app_assoc. reflexivity.
Qed.

End Operations.

(** ** Construction *)

Section Construction.
Context {image_Image : Type}.
Variable clockdrawer_New :
  string → color.NRGBA → string → bool →
  clockdrawer.ClockDrawer image_Image * option error.

(** The adapter [newCam] builds carries the [big] flag of its configuration
    and the renderer [clockdrawer.New] made for it. *)
Lemma newCam_fields (named : string) (c : Config) (f : fake) :
  newCam clockdrawer_New named c = (Some f, None) →
  big f = Big c
  ∧ Named f = named
  ∧ (clockdrawer_New named (default color.zero (colors !! Color c))
       (ImageType c) (Big c)).1 = clockDrawer f.
Proof.
  unfold newCam.
  destruct (clockdrawer_New _ _ _ _) as [cd [e |]]; intros [= <-]; done.
Qed.

(** A failure of [clockdrawer.New] is the failure of [newCam]. *)
Lemma newCam_error (named : string) (c : Config) (cd : clockdrawer.ClockDrawer image_Image) (e : error) :
  clockdrawer_New named (default color.zero (colors !! Color c)) (ImageType c) (Big c)
    = (cd, Some e) →
  newCam clockdrawer_New named c = (None, Some e).
Proof. unfold newCam. intros ->. reflexivity. Qed.

End Construction.

(** ** The operations on the concrete adapter *)

Example clock0_monotone : monotone clock0.
Proof. intros i j Hij. unfold clock0. lia. Qed.

(** The second reading is a microsecond after the first, and prints
    differently. *)
Example Format_clock0 :
  Format_RFC3339Nano_UTC (clock0 0) = "2023-11-14T22:13:20Z"
  ∧ Format_RFC3339Nano_UTC (clock0 1) = "2023-11-14T22:13:20.000001Z".
Proof. split; vm_compute; reflexivity. Qed.

(** C1, at the adapter [f0]: both renders succeed, the second image is
    rendered after the second reading of the clock, a microsecond after the
    first, and the two images come back under the same name, the first
    reading followed by the extension. The name of the second image is not
    its own reading: [nowStr2] is formatted from [ts1]. *)
Theorem Images_SourceNames_not_distinct :
  ∃ img1 img2 md w',
    Images Format_RFC3339Nano_UTC f0 w0 = Returns (Some [img1; img2], md, None) w'
    ∧ camera.SourceName img1 = "2023-11-14T22:13:20Z.jpeg"
    ∧ camera.SourceName img2 = "2023-11-14T22:13:20Z.jpeg"
    ∧ w_trace w' =
        [ EvDebug "GetImages START";
          EvNow (clock0 0); EvImage "images1 time: 2023-11-14T22:13:20Z";
          EvNow (clock0 1); EvImage "images2 time: 2023-11-14T22:13:20Z";
          EvDebug "GetImages END" ]
    ∧ Format_RFC3339Nano_UTC (clock0 1) +:+ ".jpeg" = "2023-11-14T22:13:20.000001Z.jpeg".
Proof.
  eexists _, _, _, _. split.
  - rewrite (Images_succeeds Format_RFC3339Nano_UTC f0 w0 _ _ eq_refl eq_refl eq_refl).
    reflexivity.
  - repeat split; vm_compute; reflexivity.
Qed.

(** C2 as stated fails at [f0]: the call returns two images, and no reading
    of the clock that gave its [CapturedAt] was taken after both renders. *)
Lemma Images_CapturedAt_not_after_both_renders :
  ∃ imgs md w',
    Images Format_RFC3339Nano_UTC f0 w0 = Returns (Some imgs, md, None) w'
    ∧ ¬ read_after_renders 2 (resource.CapturedAt md) (w_trace w').
Proof.
  eexists _, _, _. split.
  { rewrite (Images_succeeds Format_RFC3339Nano_UTC f0 w0 _ _ eq_refl eq_refl eq_refl).
    reflexivity. }
  intros (pre & post & Heq & Hn). vm_compute in Heq.
  do 6 (destruct pre as [| ev pre];
        [ simplify_eq; vm_compute in Hn; lia | simplify_eq ]).
  destruct pre; discriminate.
Qed.

Lemma Images_CapturedAt_between_renders_witness :
  monotone (w_clock w0)
  ∧ ∃ imgs md w',
      Images Format_RFC3339Nano_UTC f0 w0 = Returns (Some imgs, md, None) w'
      ∧ resource.CapturedAt md = clock0 1
      ∧ (clock0 0 ≤ resource.CapturedAt md)%Z
      ∧ (clock0 1 ≤ resource.CapturedAt md)%Z.
Proof.
  assert (Hmono : monotone (w_clock w0)).
  { intros i j Hij. simpl. unfold clock0. lia. }
  split; [exact Hmono |].
  eexists _, _, _. split.
  { rewrite (Images_succeeds Format_RFC3339Nano_UTC f0 w0 _ _ eq_refl eq_refl eq_refl).
    reflexivity. }
  destruct (Images_CapturedAt_between_renders Format_RFC3339Nano_UTC f0 w0 _ _ _
              (Images_succeeds Format_RFC3339Nano_UTC f0 w0 _ _ eq_refl eq_refl eq_refl))
    as (ts1 & ts2 & l1 & l2 & -> & -> & Hcap & _ & Hle).
  split; [exact Hcap |]. exact (Hle Hmono).
Defined.

Lemma Images_render_error_witness :
  w_mu w0 = false
  ∧ (clockdrawer.Image (clockDrawer f1)
       ("images1 time: " +:+ Format_RFC3339Nano_UTC (w_clock w0 (w_reads w0)))).2 = None
  ∧ (clockdrawer.Image (clockDrawer f1)
       ("images2 time: " +:+ Format_RFC3339Nano_UTC (w_clock w0 (w_reads w0)))).2
    = Some (errors_New "png: encode failed")
  ∧ ∃ w', Images Format_RFC3339Nano_UTC f1 w0
          = Returns (None, resource.zero, Some (errors_New "png: encode failed")) w'
          ∧ w_mu w' = false.
Proof.
  split; [reflexivity |]. split; [vm_compute; reflexivity |].
  split; [vm_compute; reflexivity |].
  apply (Images_render_error Format_RFC3339Nano_UTC f1 w0).
  - reflexivity.
  - right. split; vm_compute; reflexivity.
Defined.

Lemma NextPointCloud_by_flag_witness :
  w_mu w0 = false
  ∧ NextPointCloud ReadPCD_length [Byte.x00] [Byte.x01; Byte.x02] f1 w0 =
      Returns (2%nat, None)
        (mkWorld clock0 0 false
           [EvDebug "NextPointCloud START"; EvDebug "NextPointCloud END"])
  ∧ NextPointCloud ReadPCD_length [Byte.x00] [Byte.x01; Byte.x02] f0 w0 =
      Returns (1%nat, None)
        (mkWorld clock0 0 false
           [EvDebug "NextPointCloud START"; EvDebug "NextPointCloud END"]).
Proof.
  split; [reflexivity |]. split.
  - apply (NextPointCloud_by_flag ReadPCD_length [Byte.x00] [Byte.x01; Byte.x02] f1 w0).
    reflexivity.
  - apply (NextPointCloud_by_flag ReadPCD_length [Byte.x00] [Byte.x01; Byte.x02] f0 w0).
    reflexivity.
Defined.

Lemma DoCommand_boom_witness :
  w_mu w0 = false
  ∧ DoCommand f0 ({[ "boom" := 0%nat ]} : gmap string nat) w0 =
      Exits 1 (mkWorld clock0 0 true [EvInfo (Cyan +:+ "Boom" +:+ Reset)])
  ∧ DoCommand f0 ({[ "bang" := 0%nat ]} : gmap string nat) w0 = Returns (None, None) w0.
Proof.
  split; [reflexivity |]. split.
  - apply (DoCommand_boom f0 {[ "boom" := 0%nat ]} w0); [reflexivity | vm_compute; eauto].
  - apply (DoCommand_boom f0 {[ "bang" := 0%nat ]} w0); [reflexivity | vm_compute; reflexivity].
Defined.

(** * Further properties of the module *)

(** ** Validation and construction *)

(** X1: [Validate] returns no error exactly for the configurations whose
    color is a key of [colors] and whose image type is a key of
    [imageTypes]; the match is exact, so the empty string of an omitted
    field and a name in another case are rejected. *)
Theorem Validate_ok_iff (g : Globals) (c : Config) (path : string) :
  (Validate g c path).2 = None
  ↔ Color c ∈ ["white"; "red"; "green"; "blue"] ∧ ImageType c ∈ ["jpeg"; "png"].
Proof.
  split.
  - intros Hok.
    destruct (decide (Color c ∈ ["white"; "red"; "green"; "blue"])) as [Hc | Hc].
    + split; [exact Hc |].
      destruct (decide (ImageType c ∈ ["jpeg"; "png"])) as [Ht | Ht]; [exact Ht |].
      rewrite (Validate_image_type_error g c path) in Hok; [discriminate | |].
      * by apply colors_lookup_Some.
      * by apply imageTypes_lookup_None.
    + rewrite (Validate_color_error g c path) in Hok; [discriminate |].
      by apply colors_lookup_None.
  - intros [[rgba Hc]%colors_lookup_Some [b Ht]%imageTypes_lookup_Some].
    unfold Validate. rewrite Hc, Ht. reflexivity.
Qed.

(** X2: the result of [Validate], error text included, does not depend on
    the order in which [maps.Keys] listed the keys of the two tables. *)
Theorem Validate_order_independent (g1 g2 : Globals) (c : Config) (path : string) :
  var_initialised g1 → var_initialised g2 →
  Validate (init g1) c path = Validate (init g2) c path.
Proof.
  intros H1 H2. rewrite (init_options g1 H1), (init_options g2 H2). reflexivity.
Qed.

Lemma globals1_initialised : var_initialised globals1.
Proof.
  split; unfold maps_Keys, imageTypes, colors;
    rewrite map_to_list_to_map by compute_done; reflexivity.
Qed.

Lemma Validate_order_independent_witness :
  var_initialised globals0 ∧ var_initialised globals1
  ∧ Validate (init globals0) (mkConfig false "" "png") ""
    = Validate (init globals1) (mkConfig false "" "png") "".
Proof.
  split; [exact globals0_initialised |]. split; [exact globals1_initialised |].
  apply Validate_order_independent;
    [exact globals0_initialised | exact globals1_initialised].
Defined.

Section MoreConstruction.
Context {image_Image : Type}.
Variable clockdrawer_New :
  string → color.NRGBA → string → bool →
  clockdrawer.ClockDrawer image_Image * option error.

(** Every color of the table is opaque. *)
Lemma colors_opaque (name : string) (rgba : color.NRGBA) :
  colors !! name = Some rgba → color.A rgba = 255.
Proof.
  intros H%elem_of_list_to_map_2.
  rewrite !elem_of_cons, elem_of_nil in H.
  destruct H as [[= _ ->] | [[= _ ->] | [[= _ ->] | [[= _ ->] | []]]]]; reflexivity.
Qed.

(** X3: for a configuration that [Validate] accepts, [newCam] builds the
    renderer with the color of the table, an opaque one, and with the image
    type and size flag of the configuration; the adapter is the renderer's
    on success, and a failure of [clockdrawer.New] is returned as it is. *)
Theorem newCam_after_Validate (g : Globals) (named path : string) (c : Config) :
  (Validate g c path).2 = None →
  ∃ rgba,
    colors !! Color c = Some rgba
    ∧ color.A rgba = 255
    ∧ newCam clockdrawer_New named c =
        match clockdrawer_New named rgba (ImageType c) (Big c) with
        | (cd, None) => (Some (mkFake named cd (Big c)), None)
        | (_, Some e) => (None, Some e)
        end.
Proof.
  intros [[rgba Hc]%colors_lookup_Some _]%Validate_ok_iff.
  exists rgba. split; [exact Hc |]. split; [by eapply colors_opaque |].
  unfold newCam. rewrite Hc. simpl.
  destruct (clockdrawer_New named rgba (ImageType c) (Big c)) as [cd [e |]]; reflexivity.
Qed.

(** Past the conversion, a color that is not in the table reaches
    [clockdrawer.New] as the zero color, which the map lookup yields. *)
Lemma newCam_unknown_color (named : string) (c : Config) :
  Color c ∉ ["white"; "red"; "green"; "blue"] →
  newCam clockdrawer_New named c =
    match clockdrawer_New named (color.mkNRGBA 0 0 0 0) (ImageType c) (Big c) with
    | (cd, None) => (Some (mkFake named cd (Big c)), None)
    | (_, Some e) => (None, Some e)
    end.
Proof.
  intros Hc%colors_lookup_None. unfold newCam. rewrite Hc. simpl.
  destruct (clockdrawer_New named _ (ImageType c) (Big c)) as [cd [e |]]; reflexivity.
Qed.

End MoreConstruction.

Lemma newCam_after_Validate_witness :
  (Validate (init globals0) (mkConfig true "green" "jpeg") "").2 = None
  ∧ ∃ rgba,
      colors !! "green" = Some rgba
      ∧ color.A rgba = 255
      ∧ newCam New_example "cam" (mkConfig true "green" "jpeg") =
          match New_example "cam" rgba "jpeg" true with
          | (cd, None) => (Some (mkFake "cam" cd true), None)
          | (_, Some e) => (None, Some e)
          end.
Proof.
  split; [vm_compute; reflexivity |].
  apply (newCam_after_Validate New_example (init globals0) "cam" ""
           (mkConfig true "green" "jpeg")).
  vm_compute. reflexivity.
Defined.

Section MoreRegistration.
Context {image_Image resource_Config : Type}.
Variable ResourceName : resource_Config → string.
Variable resource_NativeConfig : resource_Config → option Config * option error.
Variable clockdrawer_New :
  string → color.NRGBA → string → bool →
  clockdrawer.ClockDrawer image_Image * option error.

(** X4: [newCam] does not validate the color. When the conversion of the
    host's configuration fails, [newCam] returns that error and no adapter,
    whatever [clockdrawer.New] would answer. When it succeeds with a color
    that is not in the table, the map lookup yields the zero color,
    transparent black, and the renderer is built with it: [newCam] returns
    the adapter, or the error of [clockdrawer.New]. *)
Theorem newCam_conf_unknown_color (conf : resource_Config) :
  (∀ c e, resource_NativeConfig conf = (c, Some e) →
          newCam_conf ResourceName resource_NativeConfig clockdrawer_New conf
          = Returned (None, Some e))
  ∧ (∀ c, resource_NativeConfig conf = (Some c, None) →
          Color c ∉ ["white"; "red"; "green"; "blue"] →
          newCam_conf ResourceName resource_NativeConfig clockdrawer_New conf =
            Returned
              match clockdrawer_New (ResourceName conf) (color.mkNRGBA 0 0 0 0)
                      (ImageType c) (Big c) with
              | (cd, None) => (Some (mkFake (ResourceName conf) cd (Big c)), None)
              | (_, Some e) => (None, Some e)
              end).
Proof.
  split.
  - intros c e Hconv. unfold newCam_conf. rewrite Hconv. reflexivity.
  - intros c Hconv Hc. unfold newCam_conf. rewrite Hconv.
    rewrite (newCam_unknown_color clockdrawer_New (ResourceName conf) c Hc). reflexivity.
Qed.

End MoreRegistration.

Lemma newCam_conf_unknown_color_witness :
  NativeConfig_example ("cam", None) = (None, Some (errors_New "unexpected type"))
  ∧ newCam_conf fst NativeConfig_example New_example ("cam", None)
    = Returned (None, Some (errors_New "unexpected type"))
  ∧ NativeConfig_example ("cam", Some (mkConfig false "purple" "jpeg"))
    = (Some (mkConfig false "purple" "jpeg"), None)
  ∧ ("purple" ∉ ["white"; "red"; "green"; "blue"])
  ∧ newCam_conf fst NativeConfig_example New_example
      ("cam", Some (mkConfig false "purple" "jpeg"))
    = Returned (Some (mkFake "cam" cd_jpeg false), None).
Proof.
  split; [reflexivity |]. split.
  { destruct (newCam_conf_unknown_color fst NativeConfig_example New_example ("cam", None))
      as [Hfail _].
    apply (Hfail None (errors_New "unexpected type")). reflexivity. }
  split; [reflexivity |]. split; [compute_done |].
  destruct (newCam_conf_unknown_color fst NativeConfig_example New_example
              ("cam", Some (mkConfig false "purple" "jpeg"))) as [_ Hzero].
  rewrite (Hzero (mkConfig false "purple" "jpeg")); [reflexivity | reflexivity | compute_done].
Defined.

(** ** The mutex and the operations that take it *)

Section MoreOperations.
Context {image_Image pointcloud_PointCloud Any : Type}.
Variable Format : Time → string.
Variable pointcloud_ReadPCD : list Byte.byte → pointcloud_PointCloud * option error.
Variables smallPCDBytes bigPCDBytes : list Byte.byte.

Implicit Types (f : @fake image_Image) (w : World) (e : error).

Local Abbreviation label1 w := ("images1 time: " +:+ Format (w_clock w (w_reads w))).
Local Abbreviation label2 w := ("images2 time: " +:+ Format (w_clock w (w_reads w))).

Ltac unfold_ops :=
  cbv [Images NextPointCloud DoCommand Stream Next Close newStream
       defer mbind mret M_bind M_ret mu_Lock mu_Unlock
       clockDrawer_Image logger_Debug logger_Info time_Now os_Exit emit
       w_mu w_clock w_reads w_trace].

Lemma NextPointCloud_free f w :
  w_mu w = false →
  NextPointCloud pointcloud_ReadPCD smallPCDBytes bigPCDBytes f w =
    Returns
      (pointcloud_ReadPCD (if big f then bigPCDBytes else smallPCDBytes))
      (mkWorld (w_clock w) (w_reads w) false
         (w_trace w ++ [EvDebug "NextPointCloud START"; EvDebug "NextPointCloud END"])).
Proof.
  destruct w as [clock reads mu tr]. simpl. intros ->. unfold_ops.
  destruct (big f); rewrite <- !app_assoc; reflexivity.
Qed.

Lemma Stream_free f w :
  w_mu w = false →
  Stream f w =
    Returns (mk_s (clockDrawer f), None)
      (mkWorld (w_clock w) (w_reads w) false
         (w_trace w ++ [EvDebug "Stream START"; EvDebug "Stream END"])).
Proof.
  destruct w as [clock reads mu tr]. simpl. intros ->. unfold_ops.
  rewrite <- !app_assoc. reflexivity.
Qed.


(** The world a call of [Images] that returned images leaves. *)
Lemma Images_success_world f w imgs md w' :
  Images Format f w = Returns (Some imgs, md, None) w' →
  w_mu w = false
  ∧ w' = mkWorld (w_clock w) (S (S (w_reads w))) false
           (w_trace w ++ [ EvDebug "GetImages START"; EvNow (w_clock w (w_reads w));
                           EvImage (label1 w); EvNow (w_clock w (S (w_reads w)));
                           EvImage (label2 w); EvDebug "GetImages END" ]).
Proof.
  intros Hrun.
  destruct (w_mu w) eqn:Hmu; [by rewrite Images_blocks in Hrun |].
  destruct (clockdrawer.Image (clockDrawer f) (label1 w)) as [img1 [e1 |]] eqn:H1.
  { by rewrite (Images_first_fails _ _ _ _ _ Hmu H1) in Hrun. }
  destruct (clockdrawer.Image (clockDrawer f) (label2 w)) as [img2 [e2 |]] eqn:H2.
  { by rewrite (Images_second_fails _ _ _ _ _ _ Hmu H1 H2) in Hrun. }
  rewrite (Images_succeeds _ _ _ _ _ Hmu H1 H2) in Hrun.
  injection Hrun as <- <- <-. done.
Qed.

(** X5: while the mutex is held, [Images], [NextPointCloud], [Stream] and
    [DoCommand] wait and change nothing: no clock reading, no render, no log
    line. [DoCommand] waits also when the map has the key ["boom"], so the
    process does not exit before the mutex is free. *)
Theorem locked_operations_wait f (extra : gmap string Any) w :
  w_mu w = true →
  Images Format f w = Blocks w
  ∧ NextPointCloud pointcloud_ReadPCD smallPCDBytes bigPCDBytes f w = Blocks w
  ∧ Stream f w = Blocks w
  ∧ DoCommand f extra w = Blocks w.
Proof.
  destruct w as [clock reads mu tr]. simpl. intros ->. repeat split.
Qed.


(** ** What [Images] returns and does *)

(** X7: with the mutex free, [Images] always returns, it neither exits nor
    waits, and what it returns is one of two shapes: no images, the empty
    metadata and an error, or exactly two images and no error. Images and an
    error never come together. *)
Theorem Images_result_shape f w :
  w_mu w = false →
  ∃ r w',
    Images Format f w = Returns r w'
    ∧ ((∃ e, r = (None, resource.zero, Some e))
       ∨ (∃ i1 i2 md, r = (Some [i1; i2], md, None))).
Proof.
  intros Hmu.
  destruct (clockdrawer.Image (clockDrawer f) (label1 w)) as [img1 [e1 |]] eqn:H1.
  { eexists _, _. split; [exact (Images_first_fails _ _ _ _ _ Hmu H1) |]. left. eauto. }
  destruct (clockdrawer.Image (clockDrawer f) (label2 w)) as [img2 [e2 |]] eqn:H2.
  { eexists _, _. split; [exact (Images_second_fails _ _ _ _ _ _ Hmu H1 H2) |]. left. eauto. }
  eexists _, _. split; [exact (Images_succeeds _ _ _ _ _ Hmu H1 H2) |]. right. eauto.
Qed.

(** Replaces the counts over an explicit list of events by their value. *)
Ltac count_events n :=
  repeat match goal with
         | |- context [renders ?l] => progress change (renders l) with n
         | |- context [readings ?l] => progress change (readings l) with n
         end.

(** X8: a call of [Images] that returns has appended its events to the
    trace, has read the clock once before each render and not otherwise, and
    has rendered once or twice: twice when it returns images, and once only
    when it returns an error. *)
Theorem Images_reads_match_renders f w r w' :
  Images Format f w = Returns r w' →
  ∃ evs,
    w_trace w' = (w_trace w ++ evs)%list
    ∧ readings evs = renders evs
    ∧ w_reads w' = (w_reads w + renders evs)%nat
    ∧ (1 ≤ renders evs ≤ 2)%nat
    ∧ (r.2 = None → renders evs = 2%nat)
    ∧ (renders evs = 1%nat → is_Some r.2).
Proof.
  intros Hrun.
  destruct (w_mu w) eqn:Hmu; [by rewrite Images_blocks in Hrun |].
  destruct (clockdrawer.Image (clockDrawer f) (label1 w)) as [img1 [e1 |]] eqn:H1.
  { rewrite (Images_first_fails _ _ _ _ _ Hmu H1) in Hrun. simplify_eq.
    eexists. split; [reflexivity |]. count_events 1%nat.
    repeat split; simpl; (lia || done || eauto). }
  destruct (clockdrawer.Image (clockDrawer f) (label2 w)) as [img2 [e2 |]] eqn:H2.
  { rewrite (Images_second_fails _ _ _ _ _ _ Hmu H1 H2) in Hrun. simplify_eq.
    eexists. split; [reflexivity |]. count_events 2%nat.
    repeat split; simpl; (lia || done || eauto). }
  rewrite (Images_succeeds _ _ _ _ _ Hmu H1 H2) in Hrun. simplify_eq.
  eexists. split; [reflexivity |]. count_events 2%nat.
  repeat split; simpl; (lia || done || eauto).
Qed.

Lemma app_length (s1 s2 : string) :
  String.length (s1 +:+ s2) = (String.length s1 + String.length s2)%nat.
Proof.
  induction s1 as [| ch s1 IH]; [reflexivity |].
  change (String ch s1 +:+ s2) with (String ch (s1 +:+ s2)). simpl. by rewrite IH.
Qed.

Lemma app_cancel_r (t s1 s2 : string) : s1 +:+ t = s2 +:+ t → s1 = s2.
Proof.
  revert s2. induction s1 as [| c1 s1 IH]; intros [| c2 s2] Heq.
  - reflexivity.
  - apply (f_equal String.length) in Heq. rewrite !app_length in Heq. simpl in Heq. lia.
  - apply (f_equal String.length) in Heq. rewrite !app_length in Heq. simpl in Heq. lia.
  - change (String c1 (s1 +:+ t) = String c2 (s2 +:+ t)) in Heq.
    injection Heq as -> Heq. f_equal. by apply IH.
Qed.

(** X9: two calls of [Images] one after the other, both returning images:
    the second call names its images after the third reading of the clock,
    so a name of the first call and a name of the second are equal exactly
    when the first and the third reading print the same; and the second
    [CapturedAt] is the fourth reading. *)
Theorem Images_successive_calls f w imgs md w1 imgs' md' w2 :
  Images Format f w = Returns (Some imgs, md, None) w1 →
  Images Format f w1 = Returns (Some imgs', md', None) w2 →
  resource.CapturedAt md' = w_clock w (S (S (S (w_reads w))))
  ∧ ∀ i i', i ∈ imgs → i' ∈ imgs' →
      (camera.SourceName i = camera.SourceName i'
       ↔ Format (w_clock w (w_reads w)) = Format (w_clock w (S (S (w_reads w))))).
Proof.
  intros Hrun1 Hrun2.
  destruct (Images_success_world _ _ _ _ _ Hrun1) as [_ ->].
  apply Images_success_inv in Hrun1 as (a1 & a2 & -> & _ & _).
  apply Images_success_inv in Hrun2 as (b1 & b2 & -> & -> & _).
  simpl. split; [reflexivity |].
  intros i i' Hi Hi'.
  assert (camera.SourceName i
          = Format (w_clock w (w_reads w)) +:+ clockdrawer.Ext (clockDrawer f)) as ->.
  { rewrite !elem_of_cons, elem_of_nil in Hi. by destruct Hi as [-> | [-> | []]]. }
  assert (camera.SourceName i'
          = Format (w_clock w (S (S (w_reads w)))) +:+ clockdrawer.Ext (clockDrawer f)) as ->.
  { rewrite !elem_of_cons, elem_of_nil in Hi'. by destruct Hi' as [-> | [-> | []]]. }
  split; [apply app_cancel_r | by intros ->].
Qed.

(** ** The stream *)

Lemma Next_run (st : @s image_Image) w :
  Next Format st w =
    Returns
      ((clockdrawer.Image (s_clockDrawer st)
          ("image time: " +:+ Format (w_clock w (w_reads w)))).1,
       None,
       (clockdrawer.Image (s_clockDrawer st)
          ("image time: " +:+ Format (w_clock w (w_reads w)))).2)
      (mkWorld (w_clock w) (S (w_reads w)) (w_mu w)
         (w_trace w ++ [ EvDebug "GetImage (NEXT) START"; EvNow (w_clock w (w_reads w));
                         EvImage ("image time: " +:+ Format (w_clock w (w_reads w)));
                         EvDebug "GetImage (NEXT) END" ])).
Proof.
  destruct w as [clock reads mu tr]. unfold_ops.
  destruct (clockdrawer.Image _ _) as [img err]. rewrite <- !app_assoc. reflexivity.
Qed.

(** X10: [Next] takes no mutex: it returns in every world, also while the
    adapter's mutex is held by another call, and leaves the mutex as it
    found it. It reads the clock once and renders once, with the label
    "image time: " and the reading; it returns the renderer's image and
    error as they are, the image also when there is an error, and a [nil]
    release function. *)
Theorem Next_takes_no_mutex (st : @s image_Image) w :
  ∃ w',
    Next Format st w =
      Returns
        ((clockdrawer.Image (s_clockDrawer st)
            ("image time: " +:+ Format (w_clock w (w_reads w)))).1,
         None,
         (clockdrawer.Image (s_clockDrawer st)
            ("image time: " +:+ Format (w_clock w (w_reads w)))).2) w'
    ∧ w_mu w' = w_mu w
    ∧ w_reads w' = S (w_reads w)
    ∧ ∃ evs, w_trace w' = (w_trace w ++ evs)%list
             ∧ renders evs = 1%nat ∧ readings evs = 1%nat.
Proof.
  eexists. split; [apply Next_run |]. simpl. repeat split.
  eexists. split; [reflexivity |]. split; reflexivity.
Qed.

(** X11: with the mutex free, [Stream] returns a stream and no error,
    reads no clock and has released the mutex; the stream is bound to the
    adapter's own renderer, so in any later world its [Next] returns what
    that renderer makes of the label of the world's next reading; and
    [Close] ends nothing: a [Next] after [Close] does what [Next] does. *)
Theorem Stream_then_Next f w :
  w_mu w = false →
  ∃ st w1,
    Stream f w = Returns (st, None) w1
    ∧ w_mu w1 = false
    ∧ w_reads w1 = w_reads w
    ∧ (∀ w2, ∃ w3,
         Next Format st w2 =
           Returns
             ((clockdrawer.Image (clockDrawer f)
                 ("image time: " +:+ Format (w_clock w2 (w_reads w2)))).1,
              None,
              (clockdrawer.Image (clockDrawer f)
                 ("image time: " +:+ Format (w_clock w2 (w_reads w2)))).2) w3)
    ∧ (∀ w2, (Close st;; Next Format st) w2 = Next Format st w2).
Proof.
  intros Hmu. eexists _, _. split; [apply (Stream_free _ _ Hmu) |].
  simpl. repeat split.
  intros w2. eexists. apply Next_run.
Qed.

End MoreOperations.

Section ConfiguredPointCloud.
Context {image_Image pointcloud_PointCloud : Type}.
Variable pointcloud_ReadPCD : list Byte.byte → pointcloud_PointCloud * option error.
Variables smallPCDBytes bigPCDBytes : list Byte.byte.
Variable clockdrawer_New :
  string → color.NRGBA → string → bool →
  clockdrawer.ClockDrawer image_Image * option error.

(** X12: the [big] field of the configuration selects the payload: on the
    adapter that [newCam] built from a configuration, [NextPointCloud]
    returns what [ReadPCD] decodes from the large file when the
    configuration has [big] set and from the small file when it has not,
    whatever the color and the image type are. *)
Theorem newCam_NextPointCloud (named : string) (c : Config) (f : @fake image_Image) (w : World) :
  newCam clockdrawer_New named c = (Some f, None) →
  w_mu w = false →
  ∃ w',
    NextPointCloud pointcloud_ReadPCD smallPCDBytes bigPCDBytes f w =
      Returns (pointcloud_ReadPCD (if Big c then bigPCDBytes else smallPCDBytes)) w'
    ∧ w_mu w' = false.
Proof.
  intros (Hbig & _ & _)%newCam_fields Hmu.
  eexists. split; [rewrite <- Hbig; apply (NextPointCloud_free _ _ _ _ _ Hmu) |].
  reflexivity.
Qed.

End ConfiguredPointCloud.

(** ** The further properties on the concrete adapter *)

Lemma locked_operations_wait_witness :
  w_mu w0_held = true
  ∧ Images Format_RFC3339Nano_UTC f0 w0_held = Blocks w0_held
  ∧ NextPointCloud ReadPCD_length [Byte.x00] [Byte.x01; Byte.x02] f0 w0_held
    = Blocks w0_held
  ∧ Stream f0 w0_held = Blocks w0_held
  ∧ DoCommand f0 ({[ "boom" := 0%nat ]} : gmap string nat) w0_held = Blocks w0_held.
Proof.
  split; [reflexivity |].
  apply (locked_operations_wait Format_RFC3339Nano_UTC ReadPCD_length
           [Byte.x00] [Byte.x01; Byte.x02] f0 {[ "boom" := 0%nat ]} w0_held).
  reflexivity.
Defined.


Lemma Images_result_shape_witness :
  w_mu w0 = false
  ∧ ∃ r w',
      Images Format_RFC3339Nano_UTC f1 w0 = Returns r w'
      ∧ ((∃ e, r = (None, resource.zero, Some e))
         ∨ (∃ i1 i2 md, r = (Some [i1; i2], md, None))).
Proof.
  split; [reflexivity |].
  apply (Images_result_shape Format_RFC3339Nano_UTC f1 w0). reflexivity.
Defined.

Lemma Images_reads_match_renders_witness :
  ∃ r w',
    Images Format_RFC3339Nano_UTC f0 w0 = Returns r w'
    ∧ ∃ evs,
        w_trace w' = (w_trace w0 ++ evs)%list
        ∧ readings evs = renders evs
        ∧ w_reads w' = (w_reads w0 + renders evs)%nat
        ∧ (1 ≤ renders evs ≤ 2)%nat
        ∧ (r.2 = None → renders evs = 2%nat)
        ∧ (renders evs = 1%nat → is_Some r.2).
Proof.
  eexists _, _. split.
  { apply (Images_succeeds Format_RFC3339Nano_UTC f0 w0 _ _ eq_refl eq_refl eq_refl). }
  apply (Images_reads_match_renders Format_RFC3339Nano_UTC f0 w0).
  apply (Images_succeeds Format_RFC3339Nano_UTC f0 w0 _ _ eq_refl eq_refl eq_refl).
Defined.

Lemma Images_successive_calls_witness :
  ∃ imgs md w1 imgs' md' w2,
    Images Format_RFC3339Nano_UTC f0 w0 = Returns (Some imgs, md, None) w1
    ∧ Images Format_RFC3339Nano_UTC f0 w1 = Returns (Some imgs', md', None) w2
    ∧ resource.CapturedAt md' = clock0 3
    ∧ ∀ i i', i ∈ imgs → i' ∈ imgs' →
        (camera.SourceName i = camera.SourceName i'
         ↔ Format_RFC3339Nano_UTC (clock0 0) = Format_RFC3339Nano_UTC (clock0 2)).
Proof.
  eexists _, _, _, _, _, _. split.
  { apply (Images_succeeds Format_RFC3339Nano_UTC f0 w0 _ _ eq_refl eq_refl eq_refl). }
  split.
  { eapply (Images_succeeds Format_RFC3339Nano_UTC f0); reflexivity. }
  eapply (Images_successive_calls Format_RFC3339Nano_UTC f0 w0).
  - apply (Images_succeeds Format_RFC3339Nano_UTC f0 w0 _ _ eq_refl eq_refl eq_refl).
  - eapply (Images_succeeds Format_RFC3339Nano_UTC f0); reflexivity.
Defined.

Lemma Stream_then_Next_witness :
  w_mu w0 = false
  ∧ ∃ st w1,
      Stream f0 w0 = Returns (st, None) w1
      ∧ w_mu w1 = false
      ∧ w_reads w1 = w_reads w0
      ∧ (∀ w2, ∃ w3,
           Next Format_RFC3339Nano_UTC st w2 =
             Returns
               ((clockdrawer.Image (clockDrawer f0)
                   ("image time: " +:+ Format_RFC3339Nano_UTC (w_clock w2 (w_reads w2)))).1,
                None,
                (clockdrawer.Image (clockDrawer f0)
                   ("image time: " +:+ Format_RFC3339Nano_UTC (w_clock w2 (w_reads w2)))).2) w3)
      ∧ (∀ w2, (Close st;; Next Format_RFC3339Nano_UTC st) w2
               = Next Format_RFC3339Nano_UTC st w2).
Proof.
  split; [reflexivity |].
  apply (Stream_then_Next Format_RFC3339Nano_UTC f0 w0). reflexivity.
Defined.

Lemma newCam_NextPointCloud_witness :
  newCam New_example "cam" (mkConfig true "red" "png") = (Some f1, None)
  ∧ w_mu w0 = false
  ∧ ∃ w',
      NextPointCloud ReadPCD_length [Byte.x00] [Byte.x01; Byte.x02] f1 w0 =
        Returns (ReadPCD_length [Byte.x01; Byte.x02]) w'
      ∧ w_mu w' = false.
Proof.
  split; [reflexivity |]. split; [reflexivity |].
  apply (newCam_NextPointCloud ReadPCD_length [Byte.x00] [Byte.x01; Byte.x02]
           New_example "cam" (mkConfig true "red" "png") f1 w0); reflexivity.
Defined.

(** On [f0] the first and the third reading are two microseconds apart, so
    the names of two successive calls differ. *)
Example Images_successive_names_f0 :
  Format_RFC3339Nano_UTC (clock0 0) ≠ Format_RFC3339Nano_UTC (clock0 2).
Proof. vm_compute. discriminate. Qed.
